(** * A pthread compatibility header over Win32: embedding and properties

    The header [libmosquitto-sys/pthread.h] re-expresses a handful of
    POSIX thread and mutex operations with Win32 handles and waits.  Each
    C function is embedded as a term of a small free monad [Prog]: the
    Win32 calls, the call through [start_routine], and the loads and
    stores through pointers are the instructions, in source order.

    Two interpretations of those terms are given.
    - [run] executes one function against an arbitrary environment: the
      environment is the list of replies the native calls give, a call
      that finds no reply has not returned.
    - [step] and [exec] execute a pool of threads against a model of the
      kernel objects the header uses (events, threads, mutexes), under an
      arbitrary schedule.

    The definitions come first, the properties after them. *)

From stdpp Require Import base option list gmap.
From Stdlib Require Import ZArith Lia.

Local Open Scope Z_scope.

(** ** Constants of the platform headers *)

Module Win32.

(** Pointers and [HANDLE]s are 64-bit words (Win64, LLP64); a [DWORD]
    is a 32-bit unsigned word on every Windows target. *)
Definition PTR_BITS : Z := 64.
Definition DWORD_BITS : Z := 32.

Definition NULL : Z := 0.
Definition FALSE : Z := 0.
Definition TRUE : Z := 1.

Definition INFINITE : Z := 4294967295.        (* 0xFFFFFFFF *)
Definition WAIT_OBJECT_0 : Z := 0.
Definition WAIT_ABANDONED : Z := 128.         (* 0x00000080 *)
Definition WAIT_TIMEOUT : Z := 258.           (* 0x00000102 *)
Definition WAIT_FAILED : Z := 4294967295.     (* 0xFFFFFFFF *)
Definition STILL_ACTIVE : Z := 259.

(** [GetCurrentThread] returns the pseudo handle [(HANDLE)-2]. *)
Definition CURRENT_THREAD : Z := 2 ^ PTR_BITS - 2.

(** errno.h of the Microsoft C runtime. *)
Definition ENOMEM : Z := 12.
Definition EINVAL : Z := 22.
Definition EDEADLK : Z := 36.
Definition ENOSYS : Z := 40.

(** The cast [(DWORD)p] of a pointer: the low 32 bits. *)
Definition to_DWORD (v : Z) : Z := v mod 2 ^ DWORD_BITS.

(** The cast [(void* )d] of a [DWORD]: zero extension. *)
Definition of_DWORD (d : Z) : Z := d.

End Win32.
Import Win32.

(** ** Instructions and programs *)

(** The native calls of the header, with the arguments the source
    passes, and the call through a function pointer.
    [GetExitCodeThread h] stands for [GetExitCodeThread(h, &status)]: its
    reply is the content of [status] after the call (the [BOOL] the
    native call returns is discarded by the source). *)
Inductive call : Type :=
| GetCurrentThread
| CreateEventA (lpEventAttributes bManualReset bInitialState lpName : Z)
| SetEvent (hEvent : Z)
| CreateThread (lpThreadAttributes dwStackSize lpStartAddress lpParameter
                dwCreationFlags lpThreadId : Z)
| WaitForSingleObject (hHandle dwMilliseconds : Z)
| CloseHandle (hObject : Z)
| GetExitCodeThread (hThread : Z)
| CreateMutexA (lpMutexAttributes bInitialOwner lpName : Z)
| ReleaseMutex (hMutex : Z)
| Invoke (f arg : Z).

(** Programs: a native call and its continuation, a load or a store
    through a pointer, and automatic storage whose address is taken
    ([Alloca] on entry, [Free] on return). *)
Inductive Prog (A : Type) : Type :=
| Ret (a : A)
| Sys (c : call) (k : Z → Prog A)
| Load (p : Z) (k : Z → Prog A)
| Store (p v : Z) (k : Prog A)
| Alloca (n : nat) (k : Z → Prog A)
| Free (p : Z) (n : nat) (k : Prog A).

Arguments Ret {A} a.
Arguments Sys {A} c k.
Arguments Load {A} p k.
Arguments Store {A} p v k.
Arguments Alloca {A} n k.
Arguments Free {A} p n k.

Fixpoint bind {A B : Type} (p : Prog A) (f : A → Prog B) : Prog B :=
  match p with
  | Ret a => f a
  | Sys c k => Sys c (λ r, bind (k r) f)
  | Load q k => Load q (λ v, bind (k v) f)
  | Store q v k => Store q v (bind k f)
  | Alloca n k => Alloca n (λ q, bind (k q) f)
  | Free q n k => Free q n (bind k f)
  end.

#[global] Instance Prog_ret : MRet Prog := @Ret.
#[global] Instance Prog_bind : MBind Prog := λ A B f p, bind p f.

Definition sys (c : call) : Prog Z := Sys c Ret.
Definition load (p : Z) : Prog Z := Load p Ret.
Definition store (p v : Z) : Prog unit := Store p v (Ret tt).
Definition alloca (n : nat) : Prog Z := Alloca n Ret.
Definition free (p : Z) (n : nat) : Prog unit := Free p n (Ret tt).

(** ** The header *)

(** Field offsets of [struct pthread_create_trampoline_info], in words. *)
Definition OFF_start_routine : Z := 0.
Definition OFF_arg : Z := 1.
Definition OFF_event : Z := 2.
Definition SIZEOF_info : nat := 3.

(** The address of the function [pthread_create_trampoline]. *)
Definition TRAMPOLINE : Z := 4198400.           (* 0x401000 *)

Definition pthread_self : Prog Z :=
  sys GetCurrentThread.

Definition pthread_equal (t1 t2 : Z) : Z :=
  if t1 =? t2 then 1 else 0.

Definition pthread_create_trampoline (p : Z) : Prog Z :=
  start_routine ← load (p + OFF_start_routine);
  arg ← load (p + OFF_arg);
  event ← load (p + OFF_event);
  sys (SetEvent event);;
  r ← sys (Invoke start_routine arg);
  mret (to_DWORD r).

Definition pthread_create (thread attr start_routine arg : Z) : Prog Z :=
  info ← alloca SIZEOF_info;
  store (info + OFF_start_routine) start_routine;;
  store (info + OFF_arg) arg;;
  ev ← sys (CreateEventA NULL FALSE FALSE NULL);
  store (info + OFF_event) ev;;
  h ← sys (CreateThread NULL 0 TRAMPOLINE info 0 NULL);
  store thread h;;
  e1 ← load (info + OFF_event);
  sys (WaitForSingleObject e1 INFINITE);;
  e2 ← load (info + OFF_event);
  sys (CloseHandle e2);;
  t ← load thread;
  free info SIZEOF_info;;
  if negb (t =? 0) then mret 0 else mret ENOMEM.

Definition pthread_join (thread retval : Z) : Prog Z :=
  me ← sys GetCurrentThread;
  if thread =? me then mret EDEADLK
  else
    sys (WaitForSingleObject thread INFINITE);;
    (if negb (retval =? 0)
     then status ← sys (GetExitCodeThread thread);
          store retval (of_DWORD status)
     else mret tt);;
    sys (CloseHandle thread);;
    mret 0.

Definition pthread_cancel (thread : Z) : Prog Z :=
  mret ENOSYS.

Definition pthread_testcancel : Prog unit :=
  mret tt.

(** The mutex functions receive a [pthread_mutex_t *]; the source hands
    that pointer itself to the native call. *)
Definition pthread_mutex_destroy (mutex : Z) : Prog Z :=
  sys (CloseHandle mutex);;
  mret 0.

Definition pthread_mutex_init (mutex attr : Z) : Prog Z :=
  h ← sys (CreateMutexA NULL FALSE NULL);
  store mutex h;;
  m ← load mutex;
  if negb (m =? 0) then mret 0 else mret ENOMEM.

Definition pthread_mutex_lock (mutex : Z) : Prog Z :=
  w ← sys (WaitForSingleObject mutex INFINITE);
  if w =? WAIT_OBJECT_0 then mret 0 else mret EINVAL.

Definition pthread_mutex_unlock (mutex : Z) : Prog Z :=
  ReleaseMutexResult ← sys (ReleaseMutex mutex);
  mret 0.

(** ** Memory *)

(** Word-addressed memory: the mapped cells and the next fresh address
    for automatic storage.  A released cell is unmapped and its address
    is not handed out again, so an access after release is visible as a
    fault. *)
Record memory : Type := Memory {
  cells : gmap Z Z;
  brk : Z
}.

Fixpoint map_cells (p : Z) (n : nat) (c : gmap Z Z) : gmap Z Z :=
  match n with
  | O => c
  | S n' => <[p := 0]> (map_cells (p + 1) n' c)
  end.

Fixpoint unmap_cells (p : Z) (n : nat) (c : gmap Z Z) : gmap Z Z :=
  match n with
  | O => c
  | S n' => delete p (unmap_cells (p + 1) n' c)
  end.

Definition mem_alloca (m : memory) (n : nat) : Z * memory :=
  (brk m, Memory (map_cells (brk m) n (cells m)) (brk m + Z.of_nat n)).

Definition mem_free (m : memory) (p : Z) (n : nat) : memory :=
  Memory (unmap_cells p n (cells m)) (brk m).

Definition mem_load (m : memory) (p : Z) : option Z :=
  cells m !! p.

Definition mem_store (m : memory) (p v : Z) : option memory :=
  match cells m !! p with
  | Some _ => Some (Memory (<[p := v]> (cells m)) (brk m))
  | None => None
  end.

(** ** One function against an arbitrary environment *)

Inductive outcome (A : Type) : Type :=
| Returned (a : A)
| Blocked (c : call)
| Fault.

Arguments Returned {A} a.
Arguments Blocked {A} c.
Arguments Fault {A}.

Record result (A : Type) : Type := Result {
  final : memory;
  trace : list (call * Z);
  out : outcome A
}.

Arguments Result {A} final trace out.
Arguments final {A} r.
Arguments trace {A} r.
Arguments out {A} r.

Definition logged {A : Type} (c : call) (r : Z) (res : result A) : result A :=
  Result (final res) ((c, r) :: trace res) (out res).

(** [run p replies m]: [p] executed from memory [m]; each native call
    and each call through a function pointer takes the next reply of the
    environment, and is blocked when the environment has none left. *)
Fixpoint run {A : Type} (p : Prog A) (replies : list Z) (m : memory)
  : result A :=
  match p with
  | Ret a => Result m [] (Returned a)
  | Sys c k =>
      match replies with
      | [] => Result m [] (Blocked c)
      | r :: rest => logged c r (run (k r) rest m)
      end
  | Load q k =>
      match mem_load m q with
      | Some v => run (k v) replies m
      | None => Result m [] Fault
      end
  | Store q v k =>
      match mem_store m q v with
      | Some m' => run k replies m'
      | None => Result m [] Fault
      end
  | Alloca n k =>
      let '(q, m') := mem_alloca m n in run (k q) replies m'
  | Free q n k =>
      run k replies (mem_free m q n)
  end.

(** The native calls made, without the replies. *)
Definition calls {A : Type} (r : result A) : list call :=
  (trace r).*1.

Definition is_wait (c : call) : bool :=
  match c with WaitForSingleObject _ _ => true | _ => false end.


(** ** Threads against the kernel objects *)

(** The kernel objects behind the handles of the header.
    - An event is manual- or auto-reset, signaled or not.
    - A thread object names a thread of the pool; it is signaled once
      that thread has returned from its entry point.
    - A mutex has an owner and a recursion count. *)
Inductive kobj : Type :=
| KEvent (manual signaled : bool)
| KThread (tid : nat)
| KMutex (owner : option nat) (depth : nat).

(** A thread of the pool: the code it still has to run, the calls it
    has issued so far, and whether it made an invalid memory access. *)
Record thread : Type := Thread {
  code : Prog Z;
  issued : list call;
  crashed : bool
}.

Record world : Type := World {
  wmem : memory;
  handles : gmap Z kobj;
  next_handle : Z;
  threads : list thread;
  junk : Z                       (* content of an uninitialised DWORD *)
}.

(** The functions a function pointer may designate. *)
Definition program : Type := Z → option (Z → Prog Z).

Definition with_mem (w : world) (m : memory) : world :=
  World m (handles w) (next_handle w) (threads w) (junk w).

Definition with_handles (w : world) (hs : gmap Z kobj) : world :=
  World (wmem w) hs (next_handle w) (threads w) (junk w).

Definition new_handle (w : world) (o : kobj) : Z * world :=
  (next_handle w,
   World (wmem w) (<[next_handle w := o]> (handles w)) (next_handle w + 4)
         (threads w) (junk w)).

Definition spawn (w : world) (p : Prog Z) : nat * world :=
  (length (threads w),
   World (wmem w) (handles w) (next_handle w)
         (threads w ++ [Thread p [] false]) (junk w)).

(** The exit code of a thread that has returned from its entry point. *)
Definition exit_code (w : world) (u : nat) : option Z :=
  match threads w !! u with
  | Some (Thread (Ret v) _ false) => Some v
  | _ => None
  end.

(** The object a handle designates for thread [t]; the pseudo handle of
    [GetCurrentThread] designates the calling thread. *)
Definition resolve (w : world) (t : nat) (h : Z) : option kobj :=
  if h =? CURRENT_THREAD then Some (KThread t) else handles w !! h.

(** A wait that cannot be satisfied: an unbounded wait does not return
    ([None]); a bounded one is taken to time out. *)
Definition unsatisfied (w : world) (ms : Z) : option (Z * world) :=
  if ms =? INFINITE then None else Some (WAIT_TIMEOUT, w).

(** [kernel t fault c w]: the reply to the native call [c] of thread
    [t] and the world after it, or [None] while the call does not
    return.  [fault] makes an allocating call fail.  The calls behave
    as the platform documents them:
    - [GetCurrentThread] replies the pseudo handle, the same constant in
      every thread;
    - [CreateEventA], [CreateThread] and [CreateMutexA] reply a new
      handle, or the null handle when the allocation fails; the new
      thread starts at its entry point with the parameter given;
    - [SetEvent] signals an event; a wait on a signaled event returns
      [WAIT_OBJECT_0] and resets the event when it is auto-reset; a wait
      on an unsignaled event does not return before it is signaled;
    - a wait on a thread returns once the thread has returned from its
      entry point, and [GetExitCodeThread] then gives the value the
      entry point returned, [STILL_ACTIVE] before;
    - a wait on a mutex returns once the calling thread owns it, and
      [ReleaseMutex] gives one level of ownership back;
    - a wait on what is not a handle replies [WAIT_FAILED]; the other
      calls reply [FALSE] and have no effect, [GetExitCodeThread] then
      leaves the caller's [DWORD] as it was;
    - [CloseHandle] removes the handle; the object lives on. *)
Definition kernel (t : nat) (fault : bool) (c : call) (w : world)
  : option (Z * world) :=
  match c with
  | GetCurrentThread => Some (CURRENT_THREAD, w)
  | CreateEventA _ manual initial _ =>
      if fault then Some (NULL, w)
      else Some (new_handle w (KEvent (negb (manual =? 0))
                                      (negb (initial =? 0))))
  | SetEvent h =>
      match resolve w t h with
      | Some (KEvent manual _) =>
          Some (TRUE, with_handles w (<[h := KEvent manual true]> (handles w)))
      | _ => Some (FALSE, w)
      end
  | CreateThread _ _ entry param _ _ =>
      if fault then Some (NULL, w)
      else let '(u, w1) := spawn w (sys (Invoke entry param)) in
           Some (new_handle w1 (KThread u))
  | WaitForSingleObject h ms =>
      match resolve w t h with
      | None => Some (WAIT_FAILED, w)
      | Some (KEvent manual true) =>
          Some (WAIT_OBJECT_0,
                if manual then w
                else with_handles w (<[h := KEvent manual false]> (handles w)))
      | Some (KEvent _ false) => unsatisfied w ms
      | Some (KThread u) =>
          match exit_code w u with
          | Some _ => Some (WAIT_OBJECT_0, w)
          | None => unsatisfied w ms
          end
      | Some (KMutex None _) =>
          Some (WAIT_OBJECT_0,
                with_handles w (<[h := KMutex (Some t) 1]> (handles w)))
      | Some (KMutex (Some o) d) =>
          if decide (o = t)
          then Some (WAIT_OBJECT_0,
                     with_handles w (<[h := KMutex (Some t) (S d)]> (handles w)))
          else match exit_code w o with
               | Some _ =>
                   Some (WAIT_ABANDONED,
                         with_handles w (<[h := KMutex (Some t) 1]> (handles w)))
               | None => unsatisfied w ms
               end
      end
  | CloseHandle h =>
      match handles w !! h with
      | Some _ => Some (TRUE, with_handles w (delete h (handles w)))
      | None => Some (FALSE, w)
      end
  | GetExitCodeThread h =>
      match resolve w t h with
      | Some (KThread u) =>
          match exit_code w u with
          | Some v => Some (v, w)
          | None => Some (STILL_ACTIVE, w)
          end
      | _ => Some (junk w, w)
      end
  | CreateMutexA _ initial _ =>
      if fault then Some (NULL, w)
      else Some (new_handle w (KMutex (if initial =? 0 then None else Some t)
                                      (if initial =? 0 then 0 else 1)))
  | ReleaseMutex h =>
      match resolve w t h with
      | Some (KMutex (Some o) d) =>
          if decide (o = t)
          then Some (TRUE,
                     with_handles w
                       (<[h := match d with
                               | S (S d') => KMutex (Some t) (S d')
                               | _ => KMutex None 0
                               end]> (handles w)))
          else Some (FALSE, w)
      | _ => Some (FALSE, w)
      end
  | Invoke _ _ => None
  end.

(** Thread [t] continues with [p]. *)
Definition continue (w : world) (t : nat) (p : Prog Z) : world :=
  World (wmem w) (handles w) (next_handle w)
        (alter (λ th, Thread p (issued th) (crashed th)) t (threads w))
        (junk w).

Definition record (w : world) (t : nat) (c : call) : world :=
  World (wmem w) (handles w) (next_handle w)
        (alter (λ th, Thread (code th) (issued th ++ [c]) (crashed th)) t
               (threads w))
        (junk w).

Definition crash (w : world) (t : nat) : world :=
  World (wmem w) (handles w) (next_handle w)
        (alter (λ th, Thread (code th) (issued th) true) t (threads w))
        (junk w).

(** One instruction of thread [t]; [None] when [t] is not a thread, has
    finished or crashed, or is blocked in a wait. *)
Definition step (P : program) (t : nat) (fault : bool) (w : world)
  : option world :=
  match threads w !! t with
  | None => None
  | Some th =>
      if crashed th then None
      else
        match code th with
        | Ret _ => None
        | Load q k =>
            match mem_load (wmem w) q with
            | Some v => Some (continue w t (k v))
            | None => Some (crash w t)
            end
        | Store q v k =>
            match mem_store (wmem w) q v with
            | Some m' => Some (continue (with_mem w m') t k)
            | None => Some (crash w t)
            end
        | Alloca n k =>
            let '(q, m') := mem_alloca (wmem w) n in
            Some (continue (with_mem w m') t (k q))
        | Free q n k =>
            Some (continue (with_mem w (mem_free (wmem w) q n)) t k)
        | Sys (Invoke f a) k =>
            match P f with
            | Some body => Some (continue (record w t (Invoke f a)) t (body a ≫= k))
            | None => Some (crash w t)
            end
        | Sys c k =>
            match kernel t fault c w with
            | Some (r, w') => Some (continue (record w' t c) t (k r))
            | None => None
            end
        end
  end.

(** A schedule names, instruction by instruction, the thread that runs
    and whether an allocation made at that instruction fails; a choice
    that cannot run leaves the world as it is. *)
Definition schedule : Type := list (nat * bool).

Definition exec (P : program) (σ : schedule) (w : world) : world :=
  foldl (λ w a, default w (step P a.1 a.2 w)) w σ.

(** ** A client: create one thread and join it *)

Definition ROUTINE : Z := 4202496.              (* 0x402000 *)
Definition T_ADDR : Z := 16.                    (* a pthread_t *)
Definition R_ADDR : Z := 17.                    (* a void* *)

(** The code behind the two function pointers: the trampoline and a
    start routine. *)
Definition image (routine : Z → Prog Z) : program :=
  λ f, if f =? TRAMPOLINE then Some pthread_create_trampoline
       else if f =? ROUTINE then Some routine
       else None.

(** A start routine that computes [g] on its argument. *)
Definition pure_routine (g : Z → Z) : Z → Prog Z :=
  λ a, mret (g a).

Definition client (arg : Z) : Prog Z :=
  rc ← pthread_create T_ADDR NULL ROUTINE arg;
  if negb (rc =? 0) then mret rc
  else t ← load T_ADDR;
       pthread_join t R_ADDR.

Definition boot (main : Prog Z) : world :=
  World (Memory {[ T_ADDR := 0; R_ADDR := 0 ]} 32) ∅ 4
        [Thread main [] false] 0.

(** The value the main thread returned, once it has. *)
Definition main_returned (w : world) : option Z :=
  exit_code w 0.


Definition create_only (arg : Z) : Prog Z :=
  pthread_create T_ADDR NULL ROUTINE arg.

(** A start routine that receives the address of the [pthread_t] its
    creator filled in, and joins that handle. *)
Definition join_own_handle (a : Z) : Prog Z :=
  h ← load a;
  pthread_join h NULL.

(** A memory with a [pthread_t] at [T_ADDR] and a [void*] at [R_ADDR]. *)
Definition sample_memory : memory :=
  Memory {[ T_ADDR := 7; R_ADDR := 9 ]} 32.

(** ** Schedules and observations *)

Definition fault_free (σ : schedule) : Prop :=
  Forall (λ a, a.2 = false) σ.

(** [n] rounds in which the main thread and the created thread take
    turns. *)
Definition round_robin (n : nat) : schedule :=
  mjoin (replicate n [(0%nat, false); (1%nat, false)]).


(** The native call a thread is about to make. *)
Definition next_call (w : world) (t : nat) : option call :=
  match threads w !! t with
  | Some (Thread (Sys c _) _ false) => Some c
  | _ => None
  end.

(** ** The worlds of the handshake *)

(** The trampoline with the cast of the routine's result left open, so
    that worlds can be compared without computing a cast on an unknown
    value.  [pthread_create_trampoline] is the instance at [to_DWORD]. *)
Definition trampoline_with (cast : Z → Z) (p : Z) : Prog Z :=
  start_routine ← load (p + OFF_start_routine);
  arg ← load (p + OFF_arg);
  event ← load (p + OFF_event);
  sys (SetEvent event);;
  r ← sys (Invoke start_routine arg);
  mret (cast r).

Definition image_with (cast : Z → Z) (routine : Z → Prog Z) : program :=
  λ f, if f =? TRAMPOLINE then Some (trampoline_with cast)
       else if f =? ROUTINE then Some routine
       else None.

(** The main thread takes 19 steps through [client], the created thread
    6 through the trampoline.  The pair [(i, j)] of steps taken so far
    determines the world: the main thread up to its wait on the event,
    the created thread, the main thread again. *)
Definition canon_schedule (ij : nat * nat) : schedule :=
  replicate (ij.1 `min` 8) (0%nat, false) ++
  replicate ij.2 (1%nat, false) ++
  replicate (ij.1 - 8) (0%nat, false).

Definition canon (cast g : Z → Z) (arg : Z) (ij : nat * nat) : world :=
  exec (image_with cast (pure_routine g)) (canon_schedule ij)
       (boot (client arg)).

(** The pairs that can be reached: the created thread exists once the
    main thread has called [CreateThread] (6 steps); the main thread
    passes its wait on the event (step 9) once the created thread has
    called [SetEvent] (5 steps), and its wait on the thread (step 16)
    once the created thread has returned (6 steps). *)
Definition reachable (ij : nat * nat) : bool :=
  let '(i, j) := ij in
  (bool_decide (j = 0) || bool_decide (6 ≤ i))%nat &&
  (bool_decide (i < 9) || bool_decide (5 ≤ j))%nat &&
  (bool_decide (i < 16) || bool_decide (6 ≤ j))%nat &&
  bool_decide (i ≤ 19)%nat && bool_decide (j ≤ 6)%nat.

Definition states : list (nat * nat) :=
  Eval vm_compute in
    filter (λ ij, reachable ij = true) (i ← seq 0 20; j ← seq 0 7; [(i, j)]).

Definition main_enabled (ij : nat * nat) : bool :=
  let '(i, j) := ij in
  bool_decide (i < 19)%nat &&
  negb (bool_decide (i = 8%nat) && bool_decide (j < 5)%nat) &&
  negb (bool_decide (i = 15%nat) && bool_decide (j < 6)%nat).

Definition child_enabled (ij : nat * nat) : bool :=
  let '(i, j) := ij in
  bool_decide (6 ≤ i)%nat && bool_decide (j < 6)%nat.

(** The pair after thread [t] has been given a turn. *)
Definition next (t : nat) (ij : nat * nat) : nat * nat :=
  match t with
  | O => if main_enabled ij then (S ij.1, ij.2) else ij
  | S O => if child_enabled ij then (ij.1, S ij.2) else ij
  | _ => ij
  end.

Definition reached (cast g : Z → Z) (arg : Z) (w : world) : Prop :=
  ∃ ij, ij ∈ states ∧ w = canon cast g arg ij.

(** ** The worlds of a failed thread creation *)

(** The main thread runs [pthread_create]: the event is created, the
    call of [CreateThread], its sixth step, fails. *)
Definition thread_creation_fails : schedule :=
  replicate 5 (0%nat, false) ++ [(0%nat, true)].

(** The main thread [k] steps further. *)
Definition stalled (routine : Z → Prog Z) (arg : Z) (k : nat) : world :=
  exec (image routine) (thread_creation_fails ++ replicate k (0%nat, false))
       (boot (create_only arg)).

(** The main thread runs [pthread_create] to its end; the call of
    [CreateEventA], its fourth step, fails. *)
Definition event_creation_fails : schedule :=
  replicate 3 (0%nat, false) ++ [(0%nat, true)] ++ replicate 9 (0%nat, false).

(** ** The world of a thread that joins its own handle *)

(** [pthread_create] up to its wait on the event, the created thread up
    to its wait in [pthread_join], the rest of [pthread_create]. *)
Definition self_join_schedule : schedule :=
  replicate 8 (0%nat, false) ++ replicate 8 (1%nat, false) ++
  replicate 5 (0%nat, false).

Definition self_join_world : world :=
  exec (image join_own_handle) self_join_schedule
       (boot (create_only T_ADDR)).

(** ** A client of the mutex adapter *)

(** One mutex through its life: the four results, in order. *)
Definition mutex_cycle (mutex : Z) : Prog (list Z) :=
  r1 ← pthread_mutex_init mutex NULL;
  r2 ← pthread_mutex_lock mutex;
  r3 ← pthread_mutex_unlock mutex;
  r4 ← pthread_mutex_destroy mutex;
  mret [r1; r2; r3; r4].

(** A context for the trampoline at address 32. *)
Definition sample_context : memory :=
  Memory {[ 32 := ROUTINE; 33 := 77; 34 := 4 ]} 35.

(** ** Observations on the handshake *)

(** Thread [t] has completed a call that satisfies [p]. *)
Definition has_issued (w : world) (t : nat) (p : call → bool) : bool :=
  match threads w !! t with
  | Some th => existsb p (issued th)
  | None => false
  end.

Definition is_wait_on (h : Z) (c : call) : bool :=
  match c with WaitForSingleObject h' _ => h' =? h | _ => false end.

Definition is_set_event (h : Z) (c : call) : bool :=
  match c with SetEvent h' => h' =? h | _ => false end.

(** No thread has made an invalid memory access, and the main thread
    has come out of its wait on the event 4 only if the created thread
    has signaled it. *)
Definition context_safe (w : world) : bool :=
  forallb (λ th, negb (crashed th)) (threads w) &&
  implb (has_issued w 0 (is_wait_on 4)) (has_issued w 1 (is_set_event 4)).

(** ** A thread at work in a world *)

(** Thread [t] of [w] is about to run [p], has completed the calls
    [done] and has made no invalid access. *)
Definition running (w : world) (t : nat) (p : Prog Z) (done : list call)
  : Prop :=
  threads w !! t = Some (Thread p done false).

(** A world whose thread 0 is about to join handle 8; when [opened],
    the handle is that of thread 1, which has returned 42. *)
Definition join_world (opened : bool) : world :=
  World (Memory {[ T_ADDR := 8; R_ADDR := 0 ]} 32)
        (if opened then {[ 8 := KThread 1 ]} else ∅) 12
        [Thread (pthread_join 8 R_ADDR ≫= mret) [] false;
         Thread (mret 42) [] false]
        7.

(** A world whose only thread is about to take a mutex at [T_ADDR]
    through its life and to return the result of the lock. *)
Definition mutex_world : world :=
  boot (mutex_cycle T_ADDR ≫= λ rs, mret (default 0 (rs !! 1%nat))).

(** * Properties *)

(** ** Reasoning about memory cells and executions *)

Lemma lookup_insert_at (c : gmap Z Z) (i j v : Z) :
  i = j → <[i := v]> c !! j = Some v.
Proof. intros ->. apply lookup_insert_eq. Qed.

Lemma lookup_delete_at (c : gmap Z Z) (i j : Z) :
  i = j → delete i c !! j = None.
Proof. intros ->. apply lookup_delete_eq. Qed.

Ltac cell :=
  repeat first
    [ rewrite lookup_insert_at by lia
    | rewrite lookup_insert_ne by lia
    | rewrite lookup_delete_at by lia
    | rewrite lookup_delete_ne by lia ].

Ltac run_cbn :=
  cbn [run bind mbind mret Prog_bind Prog_ret sys load store alloca free
       logged mem_alloca mem_free map_cells unmap_cells
       cells brk final trace out negb].

(** Symbolic execution of [run]; [H] gives the content of a cell of the
    initial memory. *)
Ltac run_with H :=
  run_cbn;
  repeat (progress (unfold mem_store, mem_load; cbn [cells brk]; cell;
                    rewrite ?H; run_cbn)).

Lemma pthread_equal_true (t1 t2 : Z) : pthread_equal t1 t2 = 1 ↔ t1 = t2.
Proof.
  unfold pthread_equal. destruct (Z.eqb_spec t1 t2); split; try done.
Qed.

Lemma pthread_equal_false (t1 t2 : Z) : pthread_equal t1 t2 = 0 ↔ t1 ≠ t2.
Proof.
  unfold pthread_equal. destruct (Z.eqb_spec t1 t2); split; try done.
Qed.

Lemma exec_app (P : program) (σ1 σ2 : schedule) (w : world) :
  exec P (σ1 ++ σ2) w = exec P σ2 (exec P σ1 w).
Proof. apply foldl_app. Qed.

Lemma exec_cons (P : program) (t : nat) (b : bool) (σ : schedule) (w : world) :
  exec P ((t, b) :: σ) w = exec P σ (default w (step P t b w)).
Proof. reflexivity. Qed.

(** A set of worlds closed under every step is closed under every
    schedule. *)
Lemma exec_invariant (P : program) (I : world → Prop) :
  (∀ w t b, I w → I (default w (step P t b w))) →
  ∀ σ w, I w → I (exec P σ w).
Proof.
  intros Hstep σ. induction σ as [|[t b] σ IH]; intros w Hw; [done |].
  rewrite exec_cons. apply IH, Hstep, Hw.
Qed.

(** The same for the steps in which no allocation fails. *)
Lemma exec_invariant_fault_free (P : program) (I : world → Prop) :
  (∀ w t, I w → I (default w (step P t false w))) →
  ∀ σ w, fault_free σ → I w → I (exec P σ w).
Proof.
  intros Hstep σ. induction σ as [|[t b] σ IH]; intros w Hσ Hw; [done |].
  apply Forall_cons in Hσ as [Hb Hσ]. simpl in Hb. subst b.
  rewrite exec_cons. apply IH; [exact Hσ | apply Hstep, Hw].
Qed.

(** A world in which no thread can take a step stays as it is. *)
Lemma exec_stuck (P : program) (w : world) :
  (∀ t b, step P t b w = None) → ∀ σ, exec P σ w = w.
Proof.
  intros Hstuck σ.
  apply (exec_invariant P (λ w', w' = w)); [| done].
  intros w' t b ->. by rewrite Hstuck.
Qed.

(** ** Handles compare by value *)

(** C8: [pthread_equal] is a comparison of the two handle values, a
    function of its arguments alone, true exactly when they are the
    same value; it is reflexive ([equal(h, h)] is true for every handle)
    and symmetric. *)
Theorem pthread_equal_reflexive_symmetric :
  (∀ t1 t2 : Z, pthread_equal t1 t2 = 1 ↔ t1 = t2) ∧
  (∀ t1 t2 : Z, pthread_equal t1 t2 = 0 ↔ t1 ≠ t2) ∧
  (∀ h : Z, pthread_equal h h = 1) ∧
  (∀ a b : Z, pthread_equal a b = pthread_equal b a).
Proof.
  split; [exact pthread_equal_true |].
  split; [exact pthread_equal_false |].
  split.
  - intros h. by apply pthread_equal_true.
  - intros a b. unfold pthread_equal. by rewrite (Z.eqb_sym a b).
Qed.

(** ** The mutex adapter *)

(** C5: [pthread_mutex_lock] makes exactly one native wait, unbounded,
    and returns 0 exactly when that wait replies [WAIT_OBJECT_0]; every
    other reply is returned to the caller as [EINVAL], with no second
    wait. *)
Theorem mutex_lock_reports_wait (mutex w : Z) (rest : list Z) (m : memory) :
  let r := run (pthread_mutex_lock mutex) (w :: rest) m in
  trace r = [(WaitForSingleObject mutex INFINITE, w)] ∧
  final r = m ∧
  (out r = Returned 0 ↔ w = WAIT_OBJECT_0) ∧
  (w ≠ WAIT_OBJECT_0 → out r = Returned EINVAL).
Proof.
  unfold pthread_mutex_lock. run_cbn.
  destruct (Z.eqb_spec w WAIT_OBJECT_0) as [->|Hw]; run_cbn;
    repeat split; done.
Qed.

(** C6: [pthread_mutex_init] stores the reply of the native allocation
    in the caller's mutex.  When the allocation fails (a null handle) it
    returns [ENOMEM] and the mutex holds the null handle; when it
    succeeds it returns 0 and the mutex holds the handle. *)
Theorem mutex_init_alloc (mutex attr h : Z) (rest : list Z) (m : memory) :
  is_Some (mem_load m mutex) →
  let r := run (pthread_mutex_init mutex attr) (h :: rest) m in
  trace r = [(CreateMutexA NULL FALSE NULL, h)] ∧
  mem_load (final r) mutex = Some h ∧
  (h = NULL → out r = Returned ENOMEM) ∧
  (h ≠ NULL → out r = Returned 0).
Proof.
  intros [v0 Hv0]. unfold pthread_mutex_init, mem_load in *.
  run_with Hv0.
  destruct (Z.eqb_spec h 0) as [->|Hh]; run_with Hv0; repeat split; done.
Qed.

Lemma mutex_init_alloc_witness :
  let m := Memory {[ 16 := 7 ]} 32 in
  let r := run (pthread_mutex_init 16 0) [NULL] m in
  is_Some (mem_load m 16) ∧
  mem_load (final r) 16 = Some NULL ∧ out r = Returned ENOMEM.
Proof.
  assert (Hm : is_Some (mem_load (Memory {[ 16 := 7 ]} 32) 16))
    by (vm_compute; eauto).
  destruct (mutex_init_alloc 16 0 NULL [] _ Hm) as (_ & Hl & Hf & _).
  split; [exact Hm | split; [exact Hl | exact (Hf eq_refl)]].
Defined.

(** C7: [pthread_mutex_unlock] and [pthread_mutex_destroy] return 0
    whatever the native release, respectively close, replies. *)
Theorem mutex_unlock_destroy_always_succeed
    (mutex reply : Z) (rest : list Z) (m : memory) :
  run (pthread_mutex_unlock mutex) (reply :: rest) m
    = Result m [(ReleaseMutex mutex, reply)] (Returned 0) ∧
  run (pthread_mutex_destroy mutex) (reply :: rest) m
    = Result m [(CloseHandle mutex, reply)] (Returned 0).
Proof. split; reflexivity. Qed.

(** ** The thread adapter, one function at a time *)

(** X1: the trampoline reads the routine, the argument and the event from
    the context it is given, signals the event, calls the routine on
    the argument and returns the routine's result cast to a [DWORD]. *)
Lemma trampoline_invokes_routine
    (p start_routine arg event s r : Z) (rest : list Z) (m : memory) :
  mem_load m (p + OFF_start_routine) = Some start_routine →
  mem_load m (p + OFF_arg) = Some arg →
  mem_load m (p + OFF_event) = Some event →
  run (pthread_create_trampoline p) (s :: r :: rest) m
    = Result m [(SetEvent event, s); (Invoke start_routine arg, r)]
             (Returned (to_DWORD r)).
Proof.
  intros Hr Ha He. unfold pthread_create_trampoline. run_cbn.
  rewrite Hr. run_cbn. rewrite Ha. run_cbn. rewrite He. reflexivity.
Qed.




(** The same against the kernel objects: the wait on the null handle
    fails at once, [pthread_create] returns 0 with a thread started, and
    releases its context; the started thread then reads the released
    context. *)
Lemma create_event_failure_in_kernel :
  let P := image (pure_routine (λ a, a)) in
  let w := exec P event_creation_fails (boot (create_only 77)) in
  main_returned w = Some 0 ∧
  length (threads w) = 2%nat ∧
  issued <$> threads w !! 0%nat
    = Some [CreateEventA NULL FALSE FALSE NULL;
            CreateThread NULL 0 TRAMPOLINE 32 0 NULL;
            WaitForSingleObject NULL INFINITE;
            CloseHandle NULL] ∧
  crashed <$> threads (exec P [(1%nat, false); (1%nat, false)] w) !! 1%nat
    = Some true.
Proof. vm_compute. repeat split. Qed.

(** C9: [pthread_create] stores the reply of [CreateThread] in the
    caller's [pthread_t] as soon as the call returns.  Its first two
    native calls are [CreateEventA] and [CreateThread], the latter on
    the trampoline and the context; whatever [CreateThread] replies,
    the null handle of a failed creation included, is in [*thread] at
    the end of the run, however far the run goes.  When the wait on the
    event has not returned, the reply is already stored: the store
    comes before the wait, and so before the test of [*thread] that
    decides between 0 and [ENOMEM] once the wait and the close have
    returned. *)
Theorem create_overwrites_thread
    (thread attr start_routine arg ev h : Z) (rest : list Z) (m : memory) :
  is_Some (mem_load m thread) →
  ¬ (brk m ≤ thread < brk m + 3) →
  let r := run (pthread_create thread attr start_routine arg)
               (ev :: h :: rest) m in
  take 2 (trace r)
    = [(CreateEventA NULL FALSE FALSE NULL, ev);
       (CreateThread NULL 0 TRAMPOLINE (brk m) 0 NULL, h)] ∧
  mem_load (final r) thread = Some h ∧
  (rest = [] → out r = Blocked (WaitForSingleObject ev INFINITE)) ∧
  (∀ w c rest', rest = w :: c :: rest' →
     out r = Returned (if h =? NULL then ENOMEM else 0)).
Proof.
  intros [v0 Hv0] Hframe. unfold pthread_create, mem_load, NULL in *.
  unfold OFF_start_routine, OFF_arg, OFF_event, SIZEOF_info.
  run_with Hv0.
  destruct rest as [|w [|c rest]]; run_with Hv0.
  - repeat split; done.
  - repeat split; done.
  - destruct (h =? 0); run_with Hv0; repeat split;
      (done || (intros w' c' rest' [= <- <- <-]; reflexivity)).
Qed.

Lemma create_overwrites_thread_witness :
  let r := run (pthread_create T_ADDR NULL ROUTINE 77) [4; NULL]
               sample_memory in
  is_Some (mem_load sample_memory T_ADDR) ∧
  ¬ (brk sample_memory ≤ T_ADDR < brk sample_memory + 3) ∧
  mem_load (final r) T_ADDR = Some NULL ∧
  out r = Blocked (WaitForSingleObject 4 INFINITE).
Proof.
  assert (Hm : is_Some (mem_load sample_memory T_ADDR))
    by (vm_compute; eauto).
  assert (Hf : ¬ (brk sample_memory ≤ T_ADDR < brk sample_memory + 3))
    by (vm_compute; intros [H _]; apply H; reflexivity).
  destruct (create_overwrites_thread T_ADDR NULL ROUTINE 77 4 NULL []
              sample_memory Hm Hf) as (_ & Hl & Hb & _).
  split; [exact Hm | split; [exact Hf | split; [exact Hl | exact (Hb eq_refl)]]].
Defined.

(** X2: what the guard of [pthread_join] does catch: when the handle given
    equals the handle [GetCurrentThread] replies to the caller,
    [pthread_join] returns [EDEADLK] after that one call: no wait is
    made, nothing is stored or closed.  In particular
    [pthread_join(pthread_self(), retval)] returns [EDEADLK]. *)
Lemma join_self_handle_deadlk
    (thread retval me : Z) (rest : list Z) (m : memory) :
  pthread_equal thread me = 1 →
  run (pthread_join thread retval) (me :: rest) m
    = Result m [(GetCurrentThread, me)] (Returned EDEADLK) ∧
  run (h ← pthread_self; pthread_join h retval) (me :: me :: rest) m
    = Result m [(GetCurrentThread, me); (GetCurrentThread, me)]
             (Returned EDEADLK).
Proof.
  intros He. apply pthread_equal_true in He as ->.
  unfold pthread_join, pthread_self. run_cbn.
  rewrite Z.eqb_refl. run_cbn. done.
Qed.

(** C10, as the code has it: with a null [retval], and a handle other
    than the one [GetCurrentThread] replies to the caller,
    [pthread_join] makes the unbounded wait on the thread, closes the
    handle and returns 0; [GetExitCodeThread] is not called and nothing
    is stored. *)
Theorem join_null_retval
    (thread me w c : Z) (rest : list Z) (m : memory) :
  pthread_equal thread me = 0 →
  run (pthread_join thread NULL) (me :: w :: c :: rest) m
    = Result m [(GetCurrentThread, me);
                (WaitForSingleObject thread INFINITE, w);
                (CloseHandle thread, c)]
             (Returned 0).
Proof.
  intros Hne. apply pthread_equal_false in Hne.
  unfold pthread_join. run_cbn.
  destruct (Z.eqb_spec thread me) as [|_]; [contradiction |].
  reflexivity.
Qed.

Lemma join_null_retval_witness :
  pthread_equal 8 CURRENT_THREAD = 0 ∧
  run (pthread_join 8 NULL) [CURRENT_THREAD; WAIT_OBJECT_0; TRUE]
      sample_memory
    = Result sample_memory
             [(GetCurrentThread, CURRENT_THREAD);
              (WaitForSingleObject 8 INFINITE, WAIT_OBJECT_0);
              (CloseHandle 8, TRUE)]
             (Returned 0).
Proof.
  split; [reflexivity |].
  exact (join_null_retval 8 CURRENT_THREAD WAIT_OBJECT_0 TRUE []
           sample_memory eq_refl).
Defined.

(** C10 fails as stated: a join of the caller's own handle with a null
    [retval] makes no wait, closes nothing and returns [EDEADLK]. *)
Lemma join_null_retval_counterexample :
  let r := run (pthread_join CURRENT_THREAD NULL)
               [CURRENT_THREAD; WAIT_OBJECT_0; TRUE] sample_memory in
  out r = Returned EDEADLK ∧
  out r ≠ Returned 0 ∧
  existsb is_wait (calls r) = false.
Proof. vm_compute. repeat split. discriminate. Qed.

(** ** The handshake, under every schedule *)

Section Handshake.

Variables (cast g : Z → Z) (arg : Z).

Let P : program := image_with cast (pure_routine g).

Lemma canon_boot : canon cast g arg (0%nat, 0%nat) = boot (client arg).
Proof. reflexivity. Qed.

Lemma next_states :
  Forall (λ ij, next 0 ij ∈ states ∧ next 1 ij ∈ states) states.
Proof.
  unfold states.
  repeat (apply Forall_cons; split;
          [split; apply list_elem_of_In; vm_compute;
           repeat (first [left; reflexivity | right]) |]).
  constructor.
Qed.

(** A turn of thread [t] leads from the world of a reachable pair to
    the world of the next pair. *)
Lemma canon_step :
  Forall (λ ij, ∀ t, default (canon cast g arg ij)
                       (step P t false (canon cast g arg ij))
                     = canon cast g arg (next t ij)) states.
Proof.
  unfold states.
  repeat (apply Forall_cons; split;
          [intros [|[|t]]; vm_compute; reflexivity |]).
  constructor.
Qed.

Lemma reached_exec (σ : schedule) :
  fault_free σ → reached cast g arg (exec P σ (boot (client arg))).
Proof.
  intros Hσ. apply exec_invariant_fault_free; [| exact Hσ |].
  - intros w t (ij & Hin & ->).
    exists (next t ij). split.
    + pose proof next_states as Hn.
      rewrite Forall_forall in Hn. destruct (Hn ij Hin) as [H0 H1].
      destruct t as [|[|t]]; [exact H0 | exact H1 | exact Hin].
    + pose proof canon_step as Hs.
      rewrite Forall_forall in Hs. apply (Hs ij Hin).
  - exists (0%nat, 0%nat). split; [| by rewrite canon_boot].
    apply list_elem_of_In. left. reflexivity.
Qed.



End Handshake.

Lemma image_with_to_DWORD (routine : Z → Prog Z) :
  image routine = image_with to_DWORD routine.
Proof. reflexivity. Qed.




(** ** Thread creation fails *)

Section ThreadCreationFails.

Variables (routine : Z → Prog Z) (arg : Z).

Let P : program := image routine.

Lemma stalled_step (k : nat) (t : nat) (b : bool) :
  (k ≤ 2)%nat →
  default (stalled routine arg k) (step P t b (stalled routine arg k))
  = stalled routine arg (match t with O => S k `min` 2 | _ => k end).
Proof.
  intros Hk.
  destruct k as [|[|[|k]]]; [| | | lia];
    destruct t as [|t]; vm_compute; reflexivity.
Qed.

Lemma stalled_exec (σ : schedule) :
  ∃ k, (k ≤ 2)%nat ∧
       exec P (thread_creation_fails ++ σ) (boot (create_only arg))
       = stalled routine arg k.
Proof.
  rewrite exec_app.
  apply (exec_invariant P
           (λ w, ∃ k, (k ≤ 2)%nat ∧ w = stalled routine arg k)).
  - intros w t b (k & Hk & ->). rewrite (stalled_step k t b Hk).
    destruct t; eexists; (split; [| reflexivity]); lia.
  - exists 0%nat. split; [lia |].
    unfold stalled. cbn [replicate]. by rewrite app_nil_r.
Qed.

End ThreadCreationFails.

(** C4 on the failing input: the event is created and [CreateThread]
    fails.  Whatever the schedule does from there, [pthread_create] does
    not return: no thread has been started, the main thread has called
    [CreateEventA] and [CreateThread] and nothing else, the event is
    still unsignaled, and the main thread has not returned. *)
Theorem create_blocks_when_thread_creation_fails
    (routine : Z → Prog Z) (arg : Z) (σ : schedule) :
  let w := exec (image routine) (thread_creation_fails ++ σ)
                (boot (create_only arg)) in
  length (threads w) = 1%nat ∧
  issued <$> threads w !! 0%nat
    = Some [CreateEventA NULL FALSE FALSE NULL;
            CreateThread NULL 0 TRAMPOLINE 32 0 NULL] ∧
  handles w = {[ 4 := KEvent false false ]} ∧
  main_returned w = None.
Proof.
  destruct (stalled_exec routine arg σ) as (k & Hk & Hw).
  cbv zeta. rewrite Hw. clear Hw.
  destruct k as [|[|[|k]]]; [| | | lia]; vm_compute; repeat split.
Qed.

(** ** A thread joins its own handle *)

(** C3 on the failing input: the thread [pthread_create] started calls
    [pthread_join] on the handle [pthread_create] stored for it, a
    handle that designates this very thread.  [GetCurrentThread] gives
    it the pseudo handle, the comparison fails, and the thread goes on
    to the unbounded wait on itself: under every further schedule it is
    in that wait and has not returned. *)
Theorem join_own_handle_blocks (σ : schedule) :
  let w := exec (image join_own_handle) σ self_join_world in
  main_returned w = Some 0 ∧
  mem_load (wmem w) T_ADDR = Some 8 ∧
  resolve w 1 8 = Some (KThread 1) ∧
  issued <$> threads w !! 1%nat
    = Some [Invoke TRAMPOLINE 32; SetEvent 4; Invoke ROUTINE T_ADDR;
            GetCurrentThread] ∧
  next_call w 1 = Some (WaitForSingleObject 8 INFINITE) ∧
  exit_code w 1 = None.
Proof.
  cbv zeta. rewrite exec_stuck.
  - vm_compute. repeat split.
  - intros [|[|t]] b; vm_compute; reflexivity.
Qed.

(** * Further properties of the header *)

(** ** The thread adapter against an arbitrary environment *)

Lemma trampoline_invokes_routine_witness :
  mem_load sample_context (32 + OFF_start_routine) = Some ROUTINE ∧
  mem_load sample_context (32 + OFF_arg) = Some 77 ∧
  mem_load sample_context (32 + OFF_event) = Some 4 ∧
  run (pthread_create_trampoline 32) [TRUE; 2 ^ 32 + 9] sample_context
    = Result sample_context [(SetEvent 4, TRUE); (Invoke ROUTINE 77, 2 ^ 32 + 9)]
             (Returned 9).
Proof.
  assert (Hr : mem_load sample_context (32 + OFF_start_routine) = Some ROUTINE)
    by reflexivity.
  assert (Ha : mem_load sample_context (32 + OFF_arg) = Some 77)
    by reflexivity.
  assert (He : mem_load sample_context (32 + OFF_event) = Some 4)
    by reflexivity.
  split; [exact Hr | split; [exact Ha | split; [exact He |]]].
  exact (trampoline_invokes_routine 32 ROUTINE 77 4 TRUE (2 ^ 32 + 9) []
           sample_context Hr Ha He).
Defined.

Lemma join_self_handle_deadlk_witness :
  pthread_equal CURRENT_THREAD CURRENT_THREAD = 1 ∧
  run (pthread_join CURRENT_THREAD R_ADDR) [CURRENT_THREAD] sample_memory
    = Result sample_memory [(GetCurrentThread, CURRENT_THREAD)]
             (Returned EDEADLK).
Proof.
  split; [reflexivity |].
  exact (proj1 (join_self_handle_deadlk CURRENT_THREAD R_ADDR CURRENT_THREAD
                  [] sample_memory eq_refl)).
Defined.

Lemma join_run_retval
    (thread retval me w status c : Z) (rest : list Z) (m : memory) :
  thread ≠ me →
  retval ≠ NULL →
  is_Some (mem_load m retval) →
  run (pthread_join thread retval) (me :: w :: status :: c :: rest) m
    = Result (Memory (<[retval := status]> (cells m)) (brk m))
             [(GetCurrentThread, me);
              (WaitForSingleObject thread INFINITE, w);
              (GetExitCodeThread thread, status);
              (CloseHandle thread, c)]
             (Returned 0).
Proof.
  intros Hne Hret [v0 Hv0].
  unfold pthread_join, mem_load, of_DWORD, NULL in *. run_cbn.
  destruct (Z.eqb_spec thread me) as [|_]; [contradiction |].
  destruct (Z.eqb_spec retval 0) as [|_]; [contradiction |].
  run_with Hv0. reflexivity.
Qed.

(** X3: with a [retval] to fill and a handle other than the caller's own,
    [pthread_join] makes four native calls in this order: the query of
    the current thread, the unbounded wait, the query of the exit code,
    the close.  It returns 0 whatever the wait and the close reply, and
    the only change to memory is the exit status stored in [*retval]. *)
Theorem join_stores_exit_status
    (thread retval me w status c : Z) (rest : list Z) (m : memory) :
  pthread_equal thread me = 0 →
  retval ≠ NULL →
  is_Some (mem_load m retval) →
  run (pthread_join thread retval) (me :: w :: status :: c :: rest) m
    = Result (Memory (<[retval := status]> (cells m)) (brk m))
             [(GetCurrentThread, me);
              (WaitForSingleObject thread INFINITE, w);
              (GetExitCodeThread thread, status);
              (CloseHandle thread, c)]
             (Returned 0).
Proof.
  intros Hne Hret Hm. apply pthread_equal_false in Hne.
  by apply join_run_retval.
Qed.

Lemma join_stores_exit_status_witness :
  pthread_equal 8 CURRENT_THREAD = 0 ∧
  R_ADDR ≠ NULL ∧
  is_Some (mem_load sample_memory R_ADDR) ∧
  mem_load
    (final (run (pthread_join 8 R_ADDR) [CURRENT_THREAD; WAIT_FAILED; 5; FALSE]
                sample_memory)) R_ADDR = Some 5.
Proof.
  assert (Hm : is_Some (mem_load sample_memory R_ADDR))
    by (vm_compute; eauto).
  assert (Hr : R_ADDR ≠ NULL) by discriminate.
  split; [reflexivity | split; [exact Hr | split; [exact Hm |]]].
  rewrite (join_stores_exit_status 8 R_ADDR CURRENT_THREAD WAIT_FAILED 5 FALSE
             [] sample_memory eq_refl Hr Hm).
  reflexivity.
Defined.

(** X4: when [CreateThread] replies a handle, [pthread_create] returns 0
    whatever [CreateEventA], the wait and the close reply.  The wait is
    unbounded and on the handle [CreateEventA] replied, after the call
    of [CreateThread]; that same handle is closed once, after the
    wait. *)
Theorem create_waits_and_closes_event
    (thread attr start_routine arg ev h w c : Z) (rest : list Z) (m : memory) :
  is_Some (mem_load m thread) →
  ¬ (brk m ≤ thread < brk m + 3) →
  h ≠ NULL →
  let r := run (pthread_create thread attr start_routine arg)
               (ev :: h :: w :: c :: rest) m in
  trace r = [(CreateEventA NULL FALSE FALSE NULL, ev);
             (CreateThread NULL 0 TRAMPOLINE (brk m) 0 NULL, h);
             (WaitForSingleObject ev INFINITE, w);
             (CloseHandle ev, c)] ∧
  out r = Returned 0.
Proof.
  intros [v0 Hv0] Hframe Hh. unfold pthread_create, mem_load, NULL in *.
  unfold OFF_start_routine, OFF_arg, OFF_event, SIZEOF_info.
  run_with Hv0.
  destruct (Z.eqb_spec h 0) as [|_]; [contradiction |].
  run_with Hv0. split; done.
Qed.

Lemma create_waits_and_closes_event_witness :
  let r := run (pthread_create T_ADDR NULL ROUTINE 77)
               [4; 8; WAIT_OBJECT_0; TRUE] sample_memory in
  is_Some (mem_load sample_memory T_ADDR) ∧
  ¬ (brk sample_memory ≤ T_ADDR < brk sample_memory + 3) ∧
  8 ≠ NULL ∧
  out r = Returned 0.
Proof.
  assert (Hm : is_Some (mem_load sample_memory T_ADDR))
    by (vm_compute; eauto).
  assert (Hf : ¬ (brk sample_memory ≤ T_ADDR < brk sample_memory + 3))
    by (vm_compute; intros [H _]; apply H; reflexivity).
  assert (Hh : 8 ≠ NULL) by discriminate.
  split; [exact Hm | split; [exact Hf | split; [exact Hh |]]].
  exact (proj2 (create_waits_and_closes_event
                  T_ADDR NULL ROUTINE 77 4 8 WAIT_OBJECT_0 TRUE [] _
                  Hm Hf Hh)).
Defined.

(** X5: the footprint of [pthread_create] in memory, once it has returned:
    its context occupied three fresh cells, which are released again;
    every other cell but [*thread] holds what it held before. *)
Theorem create_memory_footprint
    (thread attr start_routine arg ev h w c q : Z) (rest : list Z)
    (m : memory) :
  is_Some (mem_load m thread) →
  ¬ (brk m ≤ thread < brk m + 3) →
  q ≠ thread →
  let r := run (pthread_create thread attr start_routine arg)
               (ev :: h :: w :: c :: rest) m in
  brk (final r) = brk m + 3 ∧
  mem_load (final r) q
    = if decide (brk m ≤ q < brk m + 3) then None else mem_load m q.
Proof.
  intros [v0 Hv0] Hframe Hq. unfold pthread_create, mem_load in *.
  unfold OFF_start_routine, OFF_arg, OFF_event, SIZEOF_info.
  run_with Hv0.
  destruct (negb (h =? 0)); run_cbn; (split; [lia |]);
    (destruct (decide (brk m ≤ q < brk m + 3)) as [Hin | Hout];
     [ assert (q = brk m ∨ q = brk m + 1 ∨ q = brk m + 2)
         as [-> | [-> | ->]] by lia; cell; reflexivity
     | cell; reflexivity ]).
Qed.

Lemma create_memory_footprint_witness :
  let r := run (pthread_create T_ADDR NULL ROUTINE 77)
               [4; 8; WAIT_OBJECT_0; TRUE] sample_memory in
  is_Some (mem_load sample_memory T_ADDR) ∧
  ¬ (brk sample_memory ≤ T_ADDR < brk sample_memory + 3) ∧
  R_ADDR ≠ T_ADDR ∧
  brk (final r) = 35 ∧
  mem_load (final r) R_ADDR = Some 9.
Proof.
  assert (Hm : is_Some (mem_load sample_memory T_ADDR))
    by (vm_compute; eauto).
  assert (Hf : ¬ (brk sample_memory ≤ T_ADDR < brk sample_memory + 3))
    by (vm_compute; intros [H _]; apply H; reflexivity).
  assert (Hq : R_ADDR ≠ T_ADDR) by discriminate.
  split; [exact Hm | split; [exact Hf | split; [exact Hq |]]].
  exact (create_memory_footprint T_ADDR NULL ROUTINE 77 4 8 WAIT_OBJECT_0 TRUE
           R_ADDR [] sample_memory Hm Hf Hq).
Defined.

(** ** The mutex adapter through a mutex's life *)

(** X6: through init, lock, unlock and destroy of one mutex, the handle
    [CreateMutexA] replies is stored in [*mutex] and in no later call:
    the wait, the release and the close are all given the pointer
    [mutex] itself.  The four results are those of the four functions:
    only init and lock can fail. *)
Theorem mutex_calls_take_the_pointer
    (mutex h w u c : Z) (rest : list Z) (m : memory) :
  is_Some (mem_load m mutex) →
  let r := run (mutex_cycle mutex) (h :: w :: u :: c :: rest) m in
  trace r = [(CreateMutexA NULL FALSE NULL, h);
             (WaitForSingleObject mutex INFINITE, w);
             (ReleaseMutex mutex, u);
             (CloseHandle mutex, c)] ∧
  mem_load (final r) mutex = Some h ∧
  out r = Returned [if h =? NULL then ENOMEM else 0;
                    if w =? WAIT_OBJECT_0 then 0 else EINVAL; 0; 0].
Proof.
  intros [v0 Hv0].
  unfold mutex_cycle, pthread_mutex_init, pthread_mutex_lock,
    pthread_mutex_unlock, pthread_mutex_destroy, mem_load, NULL in *.
  run_with Hv0.
  destruct (h =? 0); run_with Hv0;
    destruct (w =? WAIT_OBJECT_0); run_with Hv0; repeat split; done.
Qed.

Lemma mutex_calls_take_the_pointer_witness :
  let r := run (mutex_cycle T_ADDR) [4; WAIT_FAILED; FALSE; FALSE]
               sample_memory in
  is_Some (mem_load sample_memory T_ADDR) ∧
  mem_load (final r) T_ADDR = Some 4 ∧
  out r = Returned [0; EINVAL; 0; 0].
Proof.
  assert (Hm : is_Some (mem_load sample_memory T_ADDR))
    by (vm_compute; eauto).
  destruct (mutex_calls_take_the_pointer T_ADDR 4 WAIT_FAILED FALSE FALSE []
              sample_memory Hm) as (_ & Hl & Ho).
  split; [exact Hm | split; [exact Hl | exact Ho]].
Defined.

(** ** One thread's steps in an arbitrary world *)

Lemma exec_step (P : program) (t : nat) (b : bool) (σ : schedule)
    (w w' : world) :
  step P t b w = Some w' → exec P ((t, b) :: σ) w = exec P σ w'.
Proof. intros H. by rewrite exec_cons, H. Qed.

Lemma step_sys (P : program) (t : nat) (b : bool) (w w' : world)
    (c : call) (k : Z → Prog Z) (done : list call) (r : Z) :
  running w t (Sys c k) done →
  kernel t b c w = Some (r, w') →
  step P t b w = Some (continue (record w' t c) t (k r)).
Proof.
  unfold running, step. intros -> Hk. cbn.
  destruct c; try (by rewrite Hk). by cbn in Hk.
Qed.

Lemma step_store (P : program) (t : nat) (b : bool) (w : world)
    (q v : Z) (k : Prog Z) (done : list call) (m' : memory) :
  running w t (Store q v k) done →
  mem_store (wmem w) q v = Some m' →
  step P t b w = Some (continue (with_mem w m') t k).
Proof. unfold running, step. intros -> Hm. cbn. by rewrite Hm. Qed.

Lemma step_load (P : program) (t : nat) (b : bool) (w : world)
    (q v : Z) (k : Z → Prog Z) (done : list call) :
  running w t (Load q k) done →
  mem_load (wmem w) q = Some v →
  step P t b w = Some (continue w t (k v)).
Proof. unfold running, step. intros -> Hm. cbn. by rewrite Hm. Qed.

Lemma running_continue
    (w : world) (t : nat) (p0 p : Prog Z) (done : list call) :
  running w t p0 done → running (continue w t p) t p done.
Proof.
  unfold running, continue. cbn. intros H.
  by rewrite list_lookup_alter_eq, H.
Qed.

Lemma running_record
    (w : world) (t : nat) (p : Prog Z) (done : list call) (c : call) :
  running w t p done → running (record w t c) t p (done ++ [c]).
Proof.
  unfold running, record. cbn. intros H.
  by rewrite list_lookup_alter_eq, H.
Qed.

Lemma exit_code_continue (w : world) (t u : nat) (p : Prog Z) :
  u ≠ t → exit_code (continue w t p) u = exit_code w u.
Proof.
  intros Hne. unfold exit_code, continue. cbn.
  by rewrite list_lookup_alter_ne.
Qed.

Lemma exit_code_record (w : world) (t u : nat) (c : call) :
  u ≠ t → exit_code (record w t c) u = exit_code w u.
Proof.
  intros Hne. unfold exit_code, record. cbn.
  by rewrite list_lookup_alter_ne.
Qed.

Lemma others_continue (w : world) (t u : nat) (p : Prog Z) :
  u ≠ t → threads (continue w t p) !! u = threads w !! u.
Proof. intros Hne. unfold continue. cbn. by rewrite list_lookup_alter_ne. Qed.

Lemma others_record (w : world) (t u : nat) (c : call) :
  u ≠ t → threads (record w t c) !! u = threads w !! u.
Proof. intros Hne. unfold record. cbn. by rewrite list_lookup_alter_ne. Qed.

Lemma kernel_wait_terminated (w : world) (t u : nat) (b : bool) (h ms v : Z) :
  resolve w t h = Some (KThread u) → exit_code w u = Some v →
  kernel t b (WaitForSingleObject h ms) w = Some (WAIT_OBJECT_0, w).
Proof. intros Hr He. cbn [kernel]. by rewrite Hr, He. Qed.

Lemma kernel_exit_code (w : world) (t u : nat) (b : bool) (h v : Z) :
  resolve w t h = Some (KThread u) → exit_code w u = Some v →
  kernel t b (GetExitCodeThread h) w = Some (v, w).
Proof. intros Hr He. cbn [kernel]. by rewrite Hr, He. Qed.

Lemma kernel_close_open (w : world) (t : nat) (b : bool) (h : Z) (o : kobj) :
  handles w !! h = Some o →
  kernel t b (CloseHandle h) w
  = Some (TRUE, with_handles w (delete h (handles w))).
Proof. intros Ho. cbn [kernel]. by rewrite Ho. Qed.

Lemma kernel_wait_invalid (w : world) (t : nat) (b : bool) (h ms : Z) :
  resolve w t h = None →
  kernel t b (WaitForSingleObject h ms) w = Some (WAIT_FAILED, w).
Proof. intros Hr. cbn [kernel]. by rewrite Hr. Qed.

Lemma kernel_exit_code_invalid (w : world) (t : nat) (b : bool) (h : Z) :
  resolve w t h = None →
  kernel t b (GetExitCodeThread h) w = Some (junk w, w).
Proof. intros Hr. cbn [kernel]. by rewrite Hr. Qed.

Lemma kernel_release_invalid (w : world) (t : nat) (b : bool) (h : Z) :
  resolve w t h = None →
  kernel t b (ReleaseMutex h) w = Some (FALSE, w).
Proof. intros Hr. cbn [kernel]. by rewrite Hr. Qed.

Lemma kernel_close_invalid (w : world) (t : nat) (b : bool) (h : Z) :
  handles w !! h = None →
  kernel t b (CloseHandle h) w = Some (FALSE, w).
Proof. intros Ho. cbn [kernel]. by rewrite Ho. Qed.

Ltac expose H :=
  cbn [mbind mret Prog_bind Prog_ret bind sys load store negb] in H.

Ltac expose_all H :=
  cbn [mbind mret Prog_bind Prog_ret bind sys load store negb] in H |- *.

Ltac at_world tac :=
  lazymatch goal with |- context [exec _ _ ?W] => tac W end.

(** One native call of the running thread: [Hrun] says what it is
    about to run, [Hk] what the kernel replies; [Hnext] names what it
    runs next. *)
Ltac sys_step Hrun Hk Hnext :=
  rewrite (exec_step _ _ _ _ _ _ (step_sys _ _ _ _ _ _ _ _ _ Hrun Hk));
  lazymatch goal with
  | |- context [exec _ _ (continue (record ?W ?t ?c) ?t ?p)] =>
      pose proof (running_continue (record W t c) t _ p _
                    (running_record W t _ _ c Hrun)) as Hnext
  end.

Ltac store_step Hrun Hm Hnext :=
  rewrite (exec_step _ _ _ _ _ _ (step_store _ _ _ _ _ _ _ _ _ Hrun Hm));
  lazymatch goal with
  | |- context [exec _ _ (continue (with_mem ?W ?m) ?t ?p)] =>
      pose proof (running_continue (with_mem W m) t _ p _ Hrun) as Hnext
  end.

Ltac load_step Hrun Hm Hnext :=
  rewrite (exec_step _ _ _ _ _ _ (step_load _ _ _ _ _ _ _ _ Hrun Hm));
  lazymatch goal with
  | |- context [exec _ _ (continue ?W ?t ?p)] =>
      pose proof (running_continue W t _ p _ Hrun) as Hnext
  end.

Ltac others :=
  cbn [with_mem with_handles new_handle snd threads];
  repeat first [ rewrite others_continue by done
               | rewrite others_record by done
               | progress cbn [with_mem with_handles new_handle snd threads] ].

Ltac exit_codes :=
  repeat first [ rewrite exit_code_continue by done
               | rewrite exit_code_record by done ].

(** ** Joins against the kernel objects *)

(** X8: a join of a thread that has already returned does not block.
    In every world, a thread about to run [pthread_join] on a handle
    (not the pseudo handle) of a thread that has returned [v], with a
    [retval] to fill, completes the join in five steps of its own, no
    other thread taking a step: it has made the four calls of the join,
    goes on with the result 0, [*retval] holds [v], the handle is
    closed, and nothing else has changed. *)
Theorem join_terminated_thread
    (P : program) (w : world) (t u : nat) (b : bool) (h retval v : Z)
    (k : Z → Prog Z) (done : list call) :
  running w t (pthread_join h retval ≫= k) done →
  h ≠ CURRENT_THREAD →
  handles w !! h = Some (KThread u) →
  exit_code w u = Some v →
  retval ≠ NULL →
  is_Some (mem_load (wmem w) retval) →
  let w' := exec P (replicate 5 (t, b)) w in
  running w' t (k 0)
    (done ++ [GetCurrentThread; WaitForSingleObject h INFINITE;
              GetExitCodeThread h; CloseHandle h]) ∧
  wmem w' = Memory (<[retval := v]> (cells (wmem w))) (brk (wmem w)) ∧
  handles w' = delete h (handles w) ∧
  (∀ u', u' ≠ t → threads w' !! u' = threads w !! u').
Proof.
  intros Hrun Hh Hobj Hexit Hret [v0 Hv0].
  assert (Hut : u ≠ t).
  { intros ->. unfold exit_code in Hexit. unfold running in Hrun.
    rewrite Hrun in Hexit. discriminate. }
  assert (Hpseudo : (h =? CURRENT_THREAD) = false) by by apply Z.eqb_neq.
  assert (Hnull : (retval =? 0) = false) by by apply Z.eqb_neq.
  assert (Hres : resolve w t h = Some (KThread u)).
  { unfold resolve. by rewrite Hpseudo. }
  cbn [replicate]. cbv zeta.
  unfold pthread_join in Hrun. expose Hrun.
  sys_step Hrun (eq_refl : kernel t b GetCurrentThread w
                           = Some (CURRENT_THREAD, w)) Hrun1.
  rewrite Hpseudo in Hrun1 |- *. expose_all Hrun1.
  at_world ltac:(fun W =>
    assert (Hk2 : kernel t b (WaitForSingleObject h INFINITE) W
                  = Some (WAIT_OBJECT_0, W))
      by (eapply kernel_wait_terminated; [exact Hres |];
          exit_codes; exact Hexit)).
  sys_step Hrun1 Hk2 Hrun2. clear Hk2.
  rewrite Hnull in Hrun2 |- *. expose_all Hrun2.
  at_world ltac:(fun W =>
    assert (Hk3 : kernel t b (GetExitCodeThread h) W = Some (v, W))
      by (eapply kernel_exit_code; [exact Hres |];
          exit_codes; exact Hexit)).
  sys_step Hrun2 Hk3 Hrun3. clear Hk3. expose_all Hrun3.
  at_world ltac:(fun W =>
    assert (Hm4 : mem_store (wmem W) retval (of_DWORD v)
                  = Some (Memory (<[retval := v]> (cells (wmem w)))
                                 (brk (wmem w))))
      by (unfold mem_store, mem_load in *; cbn; by rewrite Hv0)).
  store_step Hrun3 Hm4 Hrun4. clear Hm4.
  at_world ltac:(fun W =>
    assert (Hk5 : kernel t b (CloseHandle h) W
                  = Some (TRUE, with_handles W (delete h (handles W))))
      by (eapply kernel_close_open; exact Hobj)).
  sys_step Hrun4 Hk5 Hrun5. clear Hk5.
  unfold exec. cbn [foldl].
  split; [by rewrite <- !app_assoc in Hrun5 |].
  split; [reflexivity |].
  split; [reflexivity |].
  intros u' Hu'. others. reflexivity.
Qed.

Lemma join_terminated_thread_witness :
  let w := join_world true in
  let w' := exec (image (pure_routine id)) (replicate 5 (0%nat, false)) w in
  running w 0 (pthread_join 8 R_ADDR ≫= mret) [] ∧
  8 ≠ CURRENT_THREAD ∧
  handles w !! 8 = Some (KThread 1) ∧
  exit_code w 1 = Some 42 ∧
  R_ADDR ≠ NULL ∧
  is_Some (mem_load (wmem w) R_ADDR) ∧
  main_returned w' = Some 0 ∧
  mem_load (wmem w') R_ADDR = Some 42.
Proof.
  assert (Hrun : running (join_world true) 0 (pthread_join 8 R_ADDR ≫= mret) [])
    by reflexivity.
  assert (Hh : 8 ≠ CURRENT_THREAD) by discriminate.
  assert (Ho : handles (join_world true) !! 8 = Some (KThread 1))
    by reflexivity.
  assert (He : exit_code (join_world true) 1 = Some 42) by reflexivity.
  assert (Hr : R_ADDR ≠ NULL) by discriminate.
  assert (Hm : is_Some (mem_load (wmem (join_world true)) R_ADDR))
    by (vm_compute; eauto).
  destruct (join_terminated_thread (image (pure_routine id)) (join_world true)
              0 1 false 8 R_ADDR 42 mret [] Hrun Hh Ho He Hr Hm)
    as (Hrun' & Hmem & _ & _).
  repeat (split; [assumption |]).
  split.
  - unfold main_returned, exit_code. unfold running in Hrun'.
    by rewrite Hrun'.
  - rewrite Hmem. reflexivity.
Defined.

(** X9: a join of a handle that is not open, for instance one that
    has been joined before, is not refused.  In every world, a thread
    about to run [pthread_join] on such a handle, with a [retval] to
    fill, completes the join in five steps of its own: the wait fails
    at once, and the thread goes on with the result 0, the
    uninitialised status in [*retval], and the handles as they were. *)
Theorem join_closed_handle
    (P : program) (w : world) (t : nat) (b : bool) (h retval : Z)
    (k : Z → Prog Z) (done : list call) :
  running w t (pthread_join h retval ≫= k) done →
  h ≠ CURRENT_THREAD →
  handles w !! h = None →
  retval ≠ NULL →
  is_Some (mem_load (wmem w) retval) →
  let w' := exec P (replicate 5 (t, b)) w in
  running w' t (k 0)
    (done ++ [GetCurrentThread; WaitForSingleObject h INFINITE;
              GetExitCodeThread h; CloseHandle h]) ∧
  wmem w' = Memory (<[retval := junk w]> (cells (wmem w))) (brk (wmem w)) ∧
  handles w' = handles w ∧
  (∀ u', u' ≠ t → threads w' !! u' = threads w !! u').
Proof.
  intros Hrun Hh Hobj Hret [v0 Hv0].
  assert (Hpseudo : (h =? CURRENT_THREAD) = false) by by apply Z.eqb_neq.
  assert (Hnull : (retval =? 0) = false) by by apply Z.eqb_neq.
  assert (Hres : resolve w t h = None).
  { unfold resolve. by rewrite Hpseudo. }
  cbn [replicate]. cbv zeta.
  unfold pthread_join in Hrun. expose Hrun.
  sys_step Hrun (eq_refl : kernel t b GetCurrentThread w
                           = Some (CURRENT_THREAD, w)) Hrun1.
  rewrite Hpseudo in Hrun1 |- *. expose_all Hrun1.
  at_world ltac:(fun W =>
    assert (Hk2 : kernel t b (WaitForSingleObject h INFINITE) W
                  = Some (WAIT_FAILED, W))
      by (eapply kernel_wait_invalid; exact Hres)).
  sys_step Hrun1 Hk2 Hrun2. clear Hk2.
  rewrite Hnull in Hrun2 |- *. expose_all Hrun2.
  at_world ltac:(fun W =>
    assert (Hk3 : kernel t b (GetExitCodeThread h) W = Some (junk w, W))
      by (rewrite (kernel_exit_code_invalid W t b h) by exact Hres;
          reflexivity)).
  sys_step Hrun2 Hk3 Hrun3. clear Hk3. expose_all Hrun3.
  at_world ltac:(fun W =>
    assert (Hm4 : mem_store (wmem W) retval (of_DWORD (junk w))
                  = Some (Memory (<[retval := junk w]> (cells (wmem w)))
                                 (brk (wmem w))))
      by (unfold mem_store, mem_load in *; cbn; by rewrite Hv0)).
  store_step Hrun3 Hm4 Hrun4. clear Hm4.
  at_world ltac:(fun W =>
    assert (Hk5 : kernel t b (CloseHandle h) W = Some (FALSE, W))
      by (eapply kernel_close_invalid; exact Hobj)).
  sys_step Hrun4 Hk5 Hrun5. clear Hk5.
  unfold exec. cbn [foldl].
  split; [by rewrite <- !app_assoc in Hrun5 |].
  split; [reflexivity |].
  split; [reflexivity |].
  intros u' Hu'. others. reflexivity.
Qed.

Lemma join_closed_handle_witness :
  let w := join_world false in
  let w' := exec (image (pure_routine id)) (replicate 5 (0%nat, false)) w in
  running w 0 (pthread_join 8 R_ADDR ≫= mret) [] ∧
  8 ≠ CURRENT_THREAD ∧
  handles w !! 8 = None ∧
  R_ADDR ≠ NULL ∧
  is_Some (mem_load (wmem w) R_ADDR) ∧
  main_returned w' = Some 0 ∧
  mem_load (wmem w') R_ADDR = Some 7.
Proof.
  assert (Hrun : running (join_world false) 0 (pthread_join 8 R_ADDR ≫= mret) [])
    by reflexivity.
  assert (Hh : 8 ≠ CURRENT_THREAD) by discriminate.
  assert (Ho : handles (join_world false) !! 8 = None) by reflexivity.
  assert (Hr : R_ADDR ≠ NULL) by discriminate.
  assert (Hm : is_Some (mem_load (wmem (join_world false)) R_ADDR))
    by (vm_compute; eauto).
  destruct (join_closed_handle (image (pure_routine id)) (join_world false)
              0 false 8 R_ADDR mret [] Hrun Hh Ho Hr Hm)
    as (Hrun' & Hmem & _ & _).
  repeat (split; [assumption |]).
  split.
  - unfold main_returned, exit_code. unfold running in Hrun'.
    by rewrite Hrun'.
  - rewrite Hmem. reflexivity.
Defined.

(** ** The mutex adapter against the kernel objects *)

(** X7: a mutex through its life, for a mutex whose address is not
    itself a handle.  In every world, a thread about to run init, lock,
    unlock and destroy on it completes them in six steps of its own
    (the allocation succeeding): init has created an unowned mutex and
    stored its handle in [*mutex]; the wait, the release and the close
    were made on the address and failed, so that the thread goes on
    with the results 0, [EINVAL], 0 and 0, the mutex is still unowned
    and its handle is still open. *)
Theorem mutex_cycle_on_kernel
    (P : program) (w : world) (t : nat) (mutex : Z)
    (k : list Z → Prog Z) (done : list call) :
  running w t (mutex_cycle mutex ≫= k) done →
  resolve w t mutex = None →
  mutex ≠ next_handle w →
  next_handle w ≠ NULL →
  is_Some (mem_load (wmem w) mutex) →
  let w' := exec P (replicate 6 (t, false)) w in
  running w' t (k [0; EINVAL; 0; 0])
    (done ++ [CreateMutexA NULL FALSE NULL;
              WaitForSingleObject mutex INFINITE;
              ReleaseMutex mutex; CloseHandle mutex]) ∧
  wmem w' = Memory (<[mutex := next_handle w]> (cells (wmem w)))
                   (brk (wmem w)) ∧
  handles w' = <[next_handle w := KMutex None 0]> (handles w) ∧
  (∀ u', u' ≠ t → threads w' !! u' = threads w !! u').
Proof.
  intros Hrun Hres Hne Hnh [v0 Hv0].
  assert (Hpseudo : (mutex =? CURRENT_THREAD) = false).
  { unfold resolve in Hres. by destruct (mutex =? CURRENT_THREAD). }
  assert (Hnone : handles w !! mutex = None).
  { unfold resolve in Hres. by rewrite Hpseudo in Hres. }
  assert (Hnz : (next_handle w =? 0) = false) by by apply Z.eqb_neq.
  cbn [replicate]. cbv zeta.
  unfold mutex_cycle, pthread_mutex_init, pthread_mutex_lock,
    pthread_mutex_unlock, pthread_mutex_destroy in Hrun.
  expose Hrun.
  sys_step Hrun (eq_refl : kernel t false (CreateMutexA NULL FALSE NULL) w
                           = Some (new_handle w (KMutex None 0))) Hrun1.
  expose_all Hrun1.
  at_world ltac:(fun W =>
    assert (Hm2 : mem_store (wmem W) mutex (next_handle w)
                  = Some (Memory (<[mutex := next_handle w]> (cells (wmem w)))
                                 (brk (wmem w))))
      by (unfold mem_store, mem_load in *; cbn; by rewrite Hv0)).
  store_step Hrun1 Hm2 Hrun2. clear Hm2.
  at_world ltac:(fun W =>
    assert (Hm3 : mem_load (wmem W) mutex = Some (next_handle w))
      by (unfold mem_load; cbn; apply lookup_insert_eq)).
  load_step Hrun2 Hm3 Hrun3. clear Hm3.
  rewrite Hnz in Hrun3 |- *. expose_all Hrun3.
  at_world ltac:(fun W =>
    assert (Hres4 : resolve W t mutex = None)
      by (unfold resolve; rewrite Hpseudo; cbn;
          by rewrite lookup_insert_ne);
    assert (Hnone4 : handles W !! mutex = None)
      by (cbn; by rewrite lookup_insert_ne)).
  at_world ltac:(fun W =>
    assert (Hk4 : kernel t false (WaitForSingleObject mutex INFINITE) W
                  = Some (WAIT_FAILED, W))
      by (eapply kernel_wait_invalid; exact Hres4)).
  sys_step Hrun3 Hk4 Hrun4. clear Hk4.
  change (WAIT_FAILED =? WAIT_OBJECT_0) with false in Hrun4 |- *.
  expose_all Hrun4.
  at_world ltac:(fun W =>
    assert (Hk5 : kernel t false (ReleaseMutex mutex) W = Some (FALSE, W))
      by (eapply kernel_release_invalid; exact Hres4)).
  sys_step Hrun4 Hk5 Hrun5. clear Hk5. expose_all Hrun5.
  at_world ltac:(fun W =>
    assert (Hk6 : kernel t false (CloseHandle mutex) W = Some (FALSE, W))
      by (eapply kernel_close_invalid; exact Hnone4)).
  sys_step Hrun5 Hk6 Hrun6. clear Hk6.
  unfold exec. cbn [foldl].
  split; [by rewrite <- !app_assoc in Hrun6 |].
  split; [reflexivity |].
  split; [reflexivity |].
  intros u' Hu'. others. reflexivity.
Qed.

Lemma mutex_cycle_on_kernel_witness :
  let w := mutex_world in
  let w' := exec (image (pure_routine id)) (replicate 6 (0%nat, false)) w in
  running w 0 (mutex_cycle T_ADDR ≫= λ rs, mret (default 0 (rs !! 1%nat))) [] ∧
  resolve w 0 T_ADDR = None ∧
  T_ADDR ≠ next_handle w ∧
  next_handle w ≠ NULL ∧
  is_Some (mem_load (wmem w) T_ADDR) ∧
  main_returned w' = Some EINVAL ∧
  handles w' = {[ 4 := KMutex None 0 ]}.
Proof.
  assert (Hrun : running mutex_world 0
                   (mutex_cycle T_ADDR ≫= λ rs, mret (default 0 (rs !! 1%nat)))
                   []) by reflexivity.
  assert (Hres : resolve mutex_world 0 T_ADDR = None) by reflexivity.
  assert (Hne : T_ADDR ≠ next_handle mutex_world) by discriminate.
  assert (Hnull : next_handle mutex_world ≠ NULL) by discriminate.
  assert (Hm : is_Some (mem_load (wmem mutex_world) T_ADDR))
    by (vm_compute; eauto).
  destruct (mutex_cycle_on_kernel (image (pure_routine id)) mutex_world 0
              T_ADDR _ [] Hrun Hres Hne Hnull Hm)
    as (Hrun' & _ & Hh & _).
  repeat (split; [assumption |]).
  split.
  - unfold main_returned, exit_code. unfold running in Hrun'.
    by rewrite Hrun'.
  - rewrite Hh. reflexivity.
Defined.

(** ** More on the handshake, under every schedule *)

Section HandshakeHygiene.

Variables (cast g : Z → Z) (arg : Z).

Lemma canon_context_safe :
  Forall (λ ij, context_safe (canon cast g arg ij) = true) states.
Proof.
  unfold states.
  repeat (apply Forall_cons; split; [vm_compute; reflexivity |]).
  constructor.
Qed.

Lemma canon_released :
  Forall (λ ij, ∀ v, main_returned (canon cast g arg ij) = Some v →
                handles (canon cast g arg ij) = ∅ ∧
                cells (wmem (canon cast g arg ij))
                  = {[ T_ADDR := 8; R_ADDR := of_DWORD (cast (g arg)) ]} ∧
                exit_code (canon cast g arg ij) 1 = Some (cast (g arg)))
         states.
Proof.
  unfold states.
  repeat (apply Forall_cons; split;
          [intros v; vm_compute; intros [= <-]; repeat split |]).
  constructor.
Qed.

End HandshakeHygiene.

(** X10: the handshake protects the context of [pthread_create].  When no
    allocation fails, under every schedule: no thread ever makes an
    invalid memory access (the created thread reads the context before
    it is released), and the main thread has come out of its wait on
    the event only if the created thread has called [SetEvent]. *)
Theorem handshake_protects_context (g : Z → Z) (arg : Z) (σ : schedule) :
  fault_free σ →
  let w := exec (image (pure_routine g)) σ (boot (client arg)) in
  forallb (λ th, negb (crashed th)) (threads w) = true ∧
  (has_issued w 0 (is_wait_on 4) = true →
   has_issued w 1 (is_set_event 4) = true).
Proof.
  intros Hσ w. subst w. rewrite image_with_to_DWORD.
  destruct (reached_exec to_DWORD g arg σ Hσ) as (ij & Hin & ->).
  pose proof (canon_context_safe to_DWORD g arg) as Hs.
  rewrite Forall_forall in Hs. specialize (Hs ij Hin).
  unfold context_safe in Hs. apply andb_prop in Hs as [Hc Hi].
  split; [exact Hc |]. intros Hw. by rewrite Hw in Hi.
Qed.

Lemma handshake_protects_context_witness :
  let w := exec (image (pure_routine (λ a, a + 1))) (round_robin 12)
                (boot (client 41)) in
  fault_free (round_robin 12) ∧
  has_issued w 0 (is_wait_on 4) = true ∧
  has_issued w 1 (is_set_event 4) = true.
Proof.
  assert (Hσ : fault_free (round_robin 12)) by (repeat constructor).
  destruct (handshake_protects_context (λ a, a + 1) 41 (round_robin 12) Hσ)
    as [_ Himp].
  assert (Hw : has_issued
                 (exec (image (pure_routine (λ a, a + 1))) (round_robin 12)
                       (boot (client 41))) 0 (is_wait_on 4) = true)
    by (vm_compute; reflexivity).
  split; [exact Hσ | split; [exact Hw | exact (Himp Hw)]].
Defined.

(** X11: create and join give back all they took.  When no allocation
    fails, under every schedule, once the main thread has returned from
    the join: no handle is open (the event was closed by
    [pthread_create], the thread handle by [pthread_join]), the context
    of [pthread_create] is released, and memory holds the thread handle
    in the caller's [pthread_t] and the exit code of the created thread
    in the caller's [retval] and nothing else. *)
Theorem create_join_release_everything
    (g : Z → Z) (arg : Z) (σ : schedule) (v : Z) :
  fault_free σ →
  let w := exec (image (pure_routine g)) σ (boot (client arg)) in
  main_returned w = Some v →
  handles w = ∅ ∧
  cells (wmem w) = {[ T_ADDR := 8; R_ADDR := of_DWORD (to_DWORD (g arg)) ]} ∧
  exit_code w 1 = Some (to_DWORD (g arg)).
Proof.
  intros Hσ w. subst w. rewrite image_with_to_DWORD.
  destruct (reached_exec to_DWORD g arg σ Hσ) as (ij & Hin & ->).
  pose proof (canon_released to_DWORD g arg) as Hs.
  rewrite Forall_forall in Hs. exact (Hs ij Hin v).
Qed.

Lemma create_join_release_everything_witness :
  let w := exec (image (pure_routine (λ a, a + 1))) (round_robin 25)
                (boot (client 41)) in
  fault_free (round_robin 25) ∧
  main_returned w = Some 0 ∧
  handles w = ∅ ∧
  exit_code w 1 = Some 42.
Proof.
  assert (Hσ : fault_free (round_robin 25)) by (repeat constructor).
  assert (Hr : main_returned
                 (exec (image (pure_routine (λ a, a + 1))) (round_robin 25)
                       (boot (client 41))) = Some 0)
    by (vm_compute; reflexivity).
  destruct (create_join_release_everything (λ a, a + 1) 41 (round_robin 25) 0
              Hσ Hr) as (Hh & _ & He).
  split; [exact Hσ | split; [exact Hr | split; [exact Hh | exact He]]].
Defined.
